(** * calc_renta: rental adjustment from the monthly CPI series

    Shallow embedding of [scripts/calc_renta.py] and the properties of its
    adjustment engine, [calcular_ajuste].

    Python floats are IEEE 754 binary64 numbers: they are modelled by Rocq's
    primitive floats, so every concrete computation below is the one the
    interpreter performs.  Console output is modelled by the list of lines
    written so far, exceptions by an outcome type, and name resolution by a
    lookup in the module's namespace. *)

From Stdlib Require Import Floats ZArith Lia Bool.
From stdpp Require Import base strings gmap list sorting.

Set Warnings "-inexact-float".

(** ** Python run-time model *)

(** An exception instance: its class name and its message. *)
Inductive excepcion : Type :=
  Excepcion (clase : string) (mensaje : string).

Definition NameError (nombre : string) : excepcion :=
  Excepcion "NameError" ("name '" +:+ nombre +:+ "' is not defined").

Definition TypeError (mensaje : string) : excepcion :=
  Excepcion "TypeError" mensaje.

(** How a call ends: it returns a value or an exception propagates. *)
Inductive resultado (A : Type) : Type :=
  | Devuelve (a : A)
  | Lanza (e : excepcion).
Arguments Devuelve {A} a.
Arguments Lanza {A} e.

(** The lines [print] writes.  The text of the fixed lines and the formatting
    of the numbers are not modelled: a line of the table carries the values
    that are formatted into it. *)
Inductive linea : Type :=
  | LineaTitulo                     (* "--- CALCULADORA DE AJUSTE DE ALQUILER ..." *)
  | LineaPregunta                   (* the prompt of [input] *)
  | LineaNumeroInvalido             (* "Por favor ingrese un numero valido." *)
  | LineaConectando                 (* "Conectando a la API del INDEC (...)..." *)
  | LineaDetalle                    (* "DETALLE DEL CALCULO (Ultimos 4 meses publicados):" *)
  | LineaSeparador                  (* "-" * 60 *)
  | LineaCabecera                   (* FECHA | IPC MENSUAL | FACTOR *)
  | LineaMes (fecha : Z) (pct : float) (factor : float)
  | LineaResultadoFinal             (* "RESULTADO FINAL:" *)
  | LineaMontoAnterior (monto : float)
  | LineaAjusteTotal (pct : float)
  | LineaRaya                       (* "---------------------------" *)
  | LineaNuevoAlquiler (monto : float)
  | LineaNota
  | LineaNotaPrincipioDeMes.

Definition stdout : Type := list linea.

(** Computations that write to the console and may raise. *)
Definition Py (A : Type) : Type := stdout → resultado A * stdout.

#[export] Instance Py_ret : MRet Py := λ A a salida, (Devuelve a, salida).

#[export] Instance Py_bind : MBind Py := λ A B k c salida,
  match c salida with
  | (Devuelve a, salida') => k a salida'
  | (Lanza e, salida') => (Lanza e, salida')
  end.

Definition print (l : linea) : Py unit :=
  λ salida, (Devuelve tt, salida ++ [l]).

Definition lanzar {A : Type} (e : excepcion) : Py A :=
  λ salida, (Lanza e, salida).

(** [lanza clase r]: the call ended with an exception of class [clase]. *)
Definition lanza {A : Type} (clase : string) (r : resultado A) : bool :=
  match r with
  | Lanza (Excepcion c _) => bool_decide (c = clase)
  | Devuelve _ => false
  end.

(** The objects bound to names at module level. *)
Inductive objeto : Type :=
  | ObjFloat (x : float)
  | ObjStr (s : string)
  | ObjModulo (nombre : string)
  | ObjClase (nombre : string)
  | ObjFuncion (nombre : string)
  | ObjIncorporada (nombre : string).

(** The name of the type of an object, as error messages give it. *)
Definition tipo (o : objeto) : string :=
  match o with
  | ObjFloat _ => "float"
  | ObjStr _ => "str"
  | ObjModulo _ => "module"
  | ObjClase _ => "type"
  | ObjFuncion _ => "function"
  | ObjIncorporada _ => "builtin_function_or_method"
  end.

Definition SERIES_ID : string := "148.3_INIVELGEN_D_A_0_26".

Definition API_URL : string :=
  "https://apis.datos.gob.ar/series/api/series?ids=" +:+ SERIES_ID
  +:+ "&limit=5000&format=json".

(** The namespace of the module once it is loaded: its imports, its two
    constants and its three functions. *)
Definition globales : gmap string objeto :=
  list_to_map
    [ ("requests", ObjModulo "requests");
      ("pd", ObjModulo "pandas");
      ("datetime", ObjClase "datetime");
      ("sys", ObjModulo "sys");
      ("SERIES_ID", ObjStr SERIES_ID);
      ("API_URL", ObjStr API_URL);
      ("obtener_datos_ipc", ObjFuncion "obtener_datos_ipc");
      ("calcular_ajuste", ObjFuncion "calcular_ajuste");
      ("main", ObjFuncion "main") ].

(** The built-in names the module uses; a name that is neither local nor
    global is looked up here last. *)
Definition incorporados : gmap string objeto :=
  list_to_map
    [ ("print", ObjIncorporada "print");
      ("input", ObjIncorporada "input");
      ("float", ObjClase "float");
      ("ValueError", ObjClase "ValueError");
      ("Exception", ObjClase "Exception") ].

(** Reading a name that the function never assigns: module namespace, then
    built-ins, else [NameError]. *)
Definition cargar_nombre (nombre : string) : Py objeto :=
  match globales !! nombre with
  | Some o => mret o
  | None =>
      match incorporados !! nombre with
      | Some o => mret o
      | None => lanzar (NameError nombre)
      end
  end.

(** [x + o] for an int literal [x] (line 72 has [1]), given as the float it
    converts to when [o] is a float. *)
Definition sumar (x : float) (o : objeto) : Py float :=
  match o with
  | ObjFloat y => mret (x + y)%float
  | _ =>
      lanzar
        (TypeError
           ("unsupported operand type(s) for +: 'int' and '" +:+ tipo o +:+ "'"))
  end.

(** ** Data: the frame of the series *)

(** One row: the month ([fecha], a timestamp) and the published monthly
    variation ([ipc_mensual]). *)
Record fila : Type := Fila { fecha : Z; ipc_mensual : float }.

(** A frame is the list of its rows, in the order of the frame.  The index
    labels of the rows, which the program never reads, are not modelled. *)
Definition DataFrame : Type := list fila.

Definition fecha_le (r1 r2 : fila) : Prop := (fecha r1 ≤ fecha r2)%Z.
Definition fecha_ge (r1 r2 : fila) : Prop := (fecha r2 ≤ fecha r1)%Z.
Definition fecha_lt (r1 r2 : fila) : Prop := (fecha r1 < fecha r2)%Z.

#[export] Instance fecha_le_dec : RelDecision fecha_le.
Proof. intros r1 r2. unfold fecha_le. apply _. Defined.
#[export] Instance fecha_ge_dec : RelDecision fecha_ge.
Proof. intros r1 r2. unfold fecha_ge. apply _. Defined.

(** [df.head(n)] *)
Definition head (n : nat) (df : DataFrame) : DataFrame := take n df.

(** [df.sort_values(by='fecha', ascending=...)].  Rows with equal dates keep
    an order the library does not promise; the series has one row per
    month. *)
Definition sort_values (ascending : bool) (df : DataFrame) : DataFrame :=
  if ascending then merge_sort fecha_le df else merge_sort fecha_ge df.

(** ** The program *)

(** [obtener_datos_ipc], from the decoded answer of the service on, for an
    answer whose dates and values all convert (lines 31 and 32): the rows of
    [data['data']] with both columns converted, sorted most recent first.
    The request itself and the two handlers that print an error and call
    [sys.exit(1)], taken when the request or a conversion fails, are outside
    the model. *)
Definition obtener_datos_ipc (raw_data : list fila) : Py DataFrame :=
  _ ← print LineaConectando;
  let df := raw_data in
  let df := sort_values false df in
  mret df.

(** Line 83: [pct_real = coeficiente if coeficiente < 2 else coeficiente / 100]. *)
Definition pct_real (coeficiente : float) : float :=
  if (coeficiente <? 2)%float then coeficiente else (coeficiente / 100)%float.

(** Line 85: [factor_dia = 1 + pct_real]. *)
Definition factor_dia (pct_real : float) : float := (1 + pct_real)%float.

(** Line 93: [nuevo_monto = monto_actual * factor_acumulado]. *)
Definition nuevo_monto (monto_actual factor_acumulado : float) : float :=
  (monto_actual * factor_acumulado)%float.

(** Line 94: [incremento_total_pct = (factor_acumulado - 1) * 100]. *)
Definition incremento_total_pct (factor_acumulado : float) : float :=
  ((factor_acumulado - 1) * 100)%float.

(** Lines 52 and 55: the first four rows, re-sorted oldest first. *)
Definition ultimos_4_meses (df_ipc : DataFrame) : DataFrame :=
  sort_values true (head 4 df_ipc).

(** The body of the loop (lines 65 to 89) for one row, from the running
    factor to the new one.  [coeficientes] is read on line 72 and assigned
    nowhere in the function, so it is resolved as a global name. *)
Definition iteracion (row : fila) (factor_acumulado : float) : Py float :=
  let inflacion_mensual := ipc_mensual row in
  let coeficiente := inflacion_mensual in
  coeficientes ← cargar_nombre "coeficientes";
  factor_mensual ← sumar 1 coeficientes;
  let factor_acumulado := (factor_acumulado * factor_mensual)%float in
  let pct_real := pct_real coeficiente in
  let factor_dia := factor_dia pct_real in
  let factor_acumulado := (factor_acumulado * factor_dia)%float in
  _ ← print (LineaMes (fecha row) (pct_real * 100)%float factor_dia);
  mret factor_acumulado.

(** [for _, row in ultimos_4_meses.iterrows(): ...] *)
Fixpoint bucle (filas : list fila) (factor_acumulado : float) : Py float :=
  match filas with
  | [] => mret factor_acumulado
  | row :: resto =>
      factor_acumulado ← iteracion row factor_acumulado;
      bucle resto factor_acumulado
  end.

Definition calcular_ajuste (monto_actual : float) (df_ipc : DataFrame)
  : Py (float * float) :=
  let ultimos_4_meses := ultimos_4_meses df_ipc in
  let factor_acumulado := 1.0%float in
  _ ← print LineaDetalle;
  _ ← print LineaSeparador;
  _ ← print LineaCabecera;
  _ ← print LineaSeparador;
  factor_acumulado ← bucle ultimos_4_meses factor_acumulado;
  _ ← print LineaSeparador;
  let nuevo_monto := nuevo_monto monto_actual factor_acumulado in
  let incremento_total_pct := incremento_total_pct factor_acumulado in
  mret (nuevo_monto, incremento_total_pct).

(** [main].  [entrada] is the value of [float(input_val)], [None] when
    [float] raises [ValueError]; [raw_data] is what the service answers. *)
Definition main (entrada : option float) (raw_data : list fila) : Py unit :=
  _ ← print LineaTitulo;
  _ ← print LineaPregunta;
  match entrada with
  | None => print LineaNumeroInvalido
  | Some monto_actual =>
      df ← obtener_datos_ipc raw_data;
      '(nuevo_monto, incremento_pct) ← calcular_ajuste monto_actual df;
      _ ← print LineaResultadoFinal;
      _ ← print (LineaMontoAnterior monto_actual);
      _ ← print (LineaAjusteTotal incremento_pct);
      _ ← print LineaRaya;
      _ ← print (LineaNuevoAlquiler nuevo_monto);
      _ ← print LineaNota;
      print LineaNotaPrincipioDeMes
  end.

(** The four lines written before the loop. *)
Definition encabezado : stdout :=
  [LineaDetalle; LineaSeparador; LineaCabecera; LineaSeparador].

(** Absolute closeness of two floats, as a test. *)
Definition cerca (x y tol : float) : bool := (abs (x - y) <=? tol)%float.

(** The cumulative factor in the spec's words: the running product, seeded
    at [1.0] (line 57), of the factors [1 + normalized rate] of the rows in
    turn (lines 83 to 86).  The loop as written multiplies by
    [factor_mensual] as well (line 73). *)
Definition factor_compuesto (filas : list fila) : float :=
  fold_left
    (λ factor_acumulado row,
       (factor_acumulado * factor_dia (pct_real (ipc_mensual row)))%float)
    filas 1.0%float.

(** ** The engine when the module binds [coeficientes] *)

(** A Python function reads its global names in the namespace of its module
    at the time of the call; a program that imports the module can bind
    [coeficientes] there before it calls [calcular_ajuste].
    [espacio_con o] is the namespace of the module after
    [coeficientes = o]: every other name, [print] included, resolves as in
    the module as written. *)
Definition espacio_con (o : objeto) : gmap string objeto :=
  <["coeficientes" := o]> globales.

(** [cargar_nombre] in a namespace [g]. *)
Definition cargar_nombre_en (g : gmap string objeto) (nombre : string)
  : Py objeto :=
  match g !! nombre with
  | Some o => mret o
  | None =>
      match incorporados !! nombre with
      | Some o => mret o
      | None => lanzar (NameError nombre)
      end
  end.

(** A row has a value when its [ipc_mensual] is not NaN. *)
Definition con_valor (row : fila) : Prop := is_nan (ipc_mensual row) = false.

(** Line 83 on what [iterrows] hands over.  The row of a frame with a
    date column comes as a series of its own, in which a missing value
    (NaN) has become [NaT]; comparing [NaT] with [2] raises.  A number is
    normalized by [pct_real]. *)
Definition normalizar (coeficiente : float) : Py float :=
  if is_nan coeficiente
  then lanzar
         (TypeError
            "'<' not supported between instances of 'NaTType' and 'int'")
  else mret (pct_real coeficiente).

(** [iteracion], [bucle] and [calcular_ajuste] again, in the namespace
    [espacio_con o].  Past line 72, which [iteracion] never gets past, the
    body is followed to its end, the missing value of line 83 included. *)
Definition iteracion_en (o : objeto) (row : fila) (factor_acumulado : float)
  : Py float :=
  let inflacion_mensual := ipc_mensual row in
  let coeficiente := inflacion_mensual in
  coeficientes ← cargar_nombre_en (espacio_con o) "coeficientes";
  factor_mensual ← sumar 1 coeficientes;
  let factor_acumulado := (factor_acumulado * factor_mensual)%float in
  pct_real ← normalizar coeficiente;
  let factor_dia := factor_dia pct_real in
  let factor_acumulado := (factor_acumulado * factor_dia)%float in
  _ ← print (LineaMes (fecha row) (pct_real * 100)%float factor_dia);
  mret factor_acumulado.

Fixpoint bucle_en (o : objeto) (filas : list fila) (factor_acumulado : float)
  : Py float :=
  match filas with
  | [] => mret factor_acumulado
  | row :: resto =>
      factor_acumulado ← iteracion_en o row factor_acumulado;
      bucle_en o resto factor_acumulado
  end.

Definition calcular_ajuste_en (o : objeto) (monto_actual : float)
    (df_ipc : DataFrame) : Py (float * float) :=
  let ultimos_4_meses := ultimos_4_meses df_ipc in
  let factor_acumulado := 1.0%float in
  _ ← print LineaDetalle;
  _ ← print LineaSeparador;
  _ ← print LineaCabecera;
  _ ← print LineaSeparador;
  factor_acumulado ← bucle_en o ultimos_4_meses factor_acumulado;
  _ ← print LineaSeparador;
  let nuevo_monto := nuevo_monto monto_actual factor_acumulado in
  let incremento_total_pct := incremento_total_pct factor_acumulado in
  mret (nuevo_monto, incremento_total_pct).

(** The line of the table line 89 prints for a row. *)
Definition linea_mes (row : fila) : linea :=
  LineaMes (fecha row) (pct_real (ipc_mensual row) * 100)%float
    (factor_dia (pct_real (ipc_mensual row))).

(** The running factor after the rows [filas], from [factor_acumulado] on,
    when [coeficientes] is the float [x]: each row multiplies it by
    [1 + x] (line 73) and then by its own factor (line 86). *)
Definition factor_tras (x : float) (filas : list fila)
    (factor_acumulado : float) : float :=
  fold_left
    (λ acc row,
       (acc * (1 + x) * factor_dia (pct_real (ipc_mensual row)))%float)
    filas factor_acumulado.

(** ** Inputs used in the examples *)

(** Months are numbered [YYYYMM]. *)
Definition df_ejemplo : DataFrame :=
  [ Fila 202404 0.06; Fila 202403 0.03; Fila 202402 0.05; Fila 202401 0.04 ].

Definition datos_desordenados : list fila :=
  [ Fila 202403 0.10; Fila 202401 0.05; Fila 202402 0.02; Fila 202404 0.03 ].

Definition datos_ordenados : list fila :=
  [ Fila 202401 0.05; Fila 202402 0.02; Fila 202403 0.10; Fila 202404 0.03 ].

Definition df_dos_meses : DataFrame :=
  [ Fila 202402 0.05; Fila 202401 0.04 ].

Definition df_tasa_invalida : DataFrame := [ Fila 202401 (-1.5) ].

Definition datos_cinco_meses : list fila :=
  [ Fila 202402 0.05; Fila 202405 0.02; Fila 202401 0.04; Fila 202404 0.06;
    Fila 202403 0.03 ].

(** * Properties *)

(** ** Binary64 facts *)

Module Float64.

Lemma Zdigits2_double (m : positive) :
  Z.pos (digits2_pos m~0) = (Z.pos (digits2_pos m) + 1)%Z.
Proof. cbn [digits2_pos]. lia. Qed.

(** Rounding the exact product of a representable mantissa by [2^52], at
    exponent [e - 52], gives the mantissa back: the 52 low bits are zero. *)
Lemma round_by_one (s : bool) (m : positive) (e : Z) :
  bounded prec emax m e = true →
  binary_round_aux prec emax s (Z.pos (m * 4503599627370496)) (e + -52) loc_Exact
  = S754_finite s m e.
Proof.
  intros Hb. unfold bounded, canonical_mantissa in Hb.
  apply andb_prop in Hb as [Hc He].
  apply Z.eqb_eq in Hc.
  unfold binary_round_aux.
  assert (Hs : shr_fexp prec emax (Z.pos (m * 4503599627370496)) (e + -52) loc_Exact
               = ({| shr_m := Z.pos m; shr_r := false; shr_s := false |}, e)).
  { unfold shr_fexp.
    rewrite Pos.mul_comm.
    replace (fexp prec emax (Zdigits2 (Z.pos (4503599627370496 * m)) + (e + -52))
             - (e + -52))%Z with 52%Z.
    - unfold shr.
      cbv beta iota fix delta
        [Pos.mul SpecFloat.iter_pos shr_record_of_loc shr_1 orb].
      f_equal. lia.
    - cbv beta iota fix delta [Pos.mul Zdigits2]. rewrite !Zdigits2_double.
      match goal with
      | |- _ = (fexp _ _ ?a - _)%Z =>
          replace a with (Z.pos (digits2_pos m) + e)%Z by lia
      end.
      rewrite Hc. lia. }
  rewrite Hs. cbn [shr_m loc_of_shr_record round_nearest_even].
  unfold shr_fexp. cbn [Zdigits2]. rewrite Hc, Z.sub_diag.
  cbn [shr shr_record_of_loc shr_m].
  rewrite He. reflexivity.
Qed.

Lemma SF64mul_1_r (f : spec_float) :
  valid_binary f = true →
  SF64mul f (S754_finite false 4503599627370496 (-52)) = f.
Proof.
  intros Hv. destruct f as [s | s | | s m e]; unfold SF64mul, SFmul.
  - now destruct s.
  - now destruct s.
  - reflexivity.
  - rewrite xorb_false_r. apply round_by_one. exact Hv.
Qed.

(** [x * 1.0] is [x] for every binary64 value, NaN, infinities and signed
    zeros included. *)
Lemma mul_1_r (x : float) : (x * 1)%float = x.
Proof.
  rewrite <- (SF2Prim_Prim2SF (x * 1)), mul_spec.
  change (Prim2SF 1) with (S754_finite false 4503599627370496 (-52)).
  rewrite SF64mul_1_r by apply Prim2SF_valid.
  apply SF2Prim_Prim2SF.
Qed.

End Float64.

(** ** The run-time model *)

Section Modelo.

Lemma print_run (l : linea) (salida : stdout) :
  print l salida = (Devuelve tt, salida ++ [l]).
Proof. reflexivity. Qed.

Lemma bind_devuelve {A B : Type} (c : Py A) (k : A → Py B)
    (a : A) (salida salida' : stdout) :
  c salida = (Devuelve a, salida') →
  (c ≫= k) salida = k a salida'.
Proof. intros Hc. unfold mbind, Py_bind. now rewrite Hc. Qed.

Lemma bind_lanza {A B : Type} (c : Py A) (k : A → Py B)
    (e : excepcion) (salida salida' : stdout) :
  c salida = (Lanza e, salida') →
  (c ≫= k) salida = (Lanza e, salida').
Proof. intros Hc. unfold mbind, Py_bind. now rewrite Hc. Qed.

(** No object is bound to [coeficientes]: not in the module, not among the
    built-ins. *)
Lemma coeficientes_sin_definir :
  globales !! "coeficientes" = None ∧ incorporados !! "coeficientes" = None.
Proof. split; vm_compute; reflexivity. Qed.

Lemma cargar_coeficientes (salida : stdout) :
  cargar_nombre "coeficientes" salida
  = (Lanza (NameError "coeficientes"), salida).
Proof.
  unfold cargar_nombre.
  destruct coeficientes_sin_definir as [-> ->]. reflexivity.
Qed.

End Modelo.

(** ** The loop *)

Section Bucle.

Lemma iteracion_lanza (row : fila) (factor_acumulado : float) (salida : stdout) :
  iteracion row factor_acumulado salida
  = (Lanza (NameError "coeficientes"), salida).
Proof.
  unfold iteracion.
  apply bind_lanza, cargar_coeficientes.
Qed.

Lemma bucle_vacio (factor_acumulado : float) (salida : stdout) :
  bucle [] factor_acumulado salida = (Devuelve factor_acumulado, salida).
Proof. reflexivity. Qed.

(** The loop takes the rows in list order: the first row first. *)
Lemma bucle_cons (row : fila) (resto : list fila) (factor_acumulado : float) :
  bucle (row :: resto) factor_acumulado
  = iteracion row factor_acumulado ≫= bucle resto.
Proof. reflexivity. Qed.

Lemma bucle_lanza (row : fila) (resto : list fila)
    (factor_acumulado : float) (salida : stdout) :
  bucle (row :: resto) factor_acumulado salida
  = (Lanza (NameError "coeficientes"), salida).
Proof.
  rewrite bucle_cons. apply bind_lanza, iteracion_lanza.
Qed.

End Bucle.

(** ** Selection of the window *)

Section Ventana.

#[local] Instance fecha_le_trans : Transitive fecha_le.
Proof. unfold fecha_le. intros x y z. lia. Qed.
#[local] Instance fecha_le_total : Total fecha_le.
Proof. unfold fecha_le. intros x y. lia. Qed.
#[local] Instance fecha_ge_trans : Transitive fecha_ge.
Proof. unfold fecha_ge. intros x y z. lia. Qed.
#[local] Instance fecha_ge_total : Total fecha_ge.
Proof. unfold fecha_ge. intros x y. lia. Qed.

Lemma sort_values_Permutation (ascending : bool) (df : DataFrame) :
  sort_values ascending df ≡ₚ df.
Proof. destruct ascending; apply merge_sort_Permutation. Qed.

Lemma sort_values_asc_sorted (df : DataFrame) :
  StronglySorted fecha_le (sort_values true df).
Proof. apply (StronglySorted_merge_sort fecha_le). Qed.

Lemma sort_values_desc_sorted (df : DataFrame) :
  StronglySorted fecha_ge (sort_values false df).
Proof. apply (StronglySorted_merge_sort fecha_ge). Qed.

(** With one row per month, rows are told apart by their month. *)
Lemma fecha_inj (l : list fila) (x y : fila) :
  NoDup (fecha <$> l) → x ∈ l → y ∈ l → fecha x = fecha y → x = y.
Proof.
  induction l as [|z l IH]; intros Hnd Hx Hy Hf.
  - inversion Hx.
  - rewrite fmap_cons, NoDup_cons in Hnd. destruct Hnd as [Hz Hnd].
    apply elem_of_cons in Hx as [-> | Hx]; apply elem_of_cons in Hy as [-> | Hy].
    + reflexivity.
    + exfalso. apply Hz. rewrite Hf. now apply list_elem_of_fmap_2.
    + exfalso. apply Hz. rewrite <- Hf. now apply list_elem_of_fmap_2.
    + now apply IH.
Qed.

(** Sorting forgets the order the rows arrived in. *)
Lemma sort_values_orden_irrelevante (ascending : bool) (l l' : list fila) :
  NoDup (fecha <$> l) → l' ≡ₚ l →
  sort_values ascending l' = sort_values ascending l.
Proof.
  intros Hnd Hp.
  assert (Hin : ∀ x1 x2, x1 ∈ sort_values ascending l' →
                 x2 ∈ sort_values ascending l → fecha x1 = fecha x2 → x1 = x2).
  { intros x1 x2 H1 H2. rewrite sort_values_Permutation in H1, H2.
    rewrite Hp in H1. now apply (fecha_inj l). }
  assert (Hpp : sort_values ascending l' ≡ₚ sort_values ascending l).
  { now rewrite !sort_values_Permutation. }
  destruct ascending.
  - apply (StronglySorted_unique_strong fecha_le); auto using sort_values_asc_sorted.
    unfold fecha_le. intros x1 x2 H1 H2 Ha Hb. apply Hin; auto. lia.
  - apply (StronglySorted_unique_strong fecha_ge); auto using sort_values_desc_sorted.
    unfold fecha_ge. intros x1 x2 H1 H2 Ha Hb. apply Hin; auto. lia.
Qed.

Lemma ultimos_4_meses_Permutation (df : DataFrame) :
  ultimos_4_meses df ≡ₚ take 4 df.
Proof. apply sort_values_Permutation. Qed.

Lemma ultimos_4_meses_length (df : DataFrame) :
  length (ultimos_4_meses df) = 4 `min` length df.
Proof. rewrite ultimos_4_meses_Permutation. apply length_take. Qed.

Lemma ultimos_4_meses_sorted (df : DataFrame) :
  StronglySorted fecha_le (ultimos_4_meses df).
Proof. apply sort_values_asc_sorted. Qed.

Lemma ultimos_4_meses_cons (row : fila) (df : DataFrame) :
  ∃ primera resto, ultimos_4_meses (row :: df) = primera :: resto.
Proof.
  pose proof (ultimos_4_meses_length (row :: df)) as Hl.
  destruct (ultimos_4_meses (row :: df)) as [|primera resto]; [|eauto].
  simpl in Hl. lia.
Qed.

(** In a frame sorted most recent first, no row after the fourth is more
    recent than a row of the window. *)
Lemma ultimos_4_meses_recientes (df : DataFrame) (r r' : fila) :
  StronglySorted fecha_ge df →
  r ∈ ultimos_4_meses df → r' ∈ drop 4 df → (fecha r' ≤ fecha r)%Z.
Proof.
  intros Hs Hr Hr'. rewrite ultimos_4_meses_Permutation in Hr.
  rewrite <- (take_drop 4 df) in Hs.
  exact (StronglySorted_app_1_elem_of fecha_ge _ _ r r' Hs Hr Hr').
Qed.

End Ventana.

(** ** What every call of [calcular_ajuste] does *)

Section Llamada.

Lemma encabezado_impreso {A : Type} (k : Py A) (salida : stdout) :
  (_ ← print LineaDetalle; _ ← print LineaSeparador;
   _ ← print LineaCabecera; _ ← print LineaSeparador; k) salida
  = k (salida ++ encabezado).
Proof.
  unfold mbind, Py_bind, print, encabezado.
  now rewrite <- !app_assoc.
Qed.

(** An empty frame: the loop body never runs, the table is closed and the
    amount comes back multiplied by the seed [1.0]. *)
Lemma calcular_ajuste_vacio (monto_actual : float) (salida : stdout) :
  calcular_ajuste monto_actual [] salida
  = (Devuelve (monto_actual, 0%float),
     salida ++ encabezado ++ [LineaSeparador]).
Proof.
  unfold calcular_ajuste. rewrite encabezado_impreso.
  change (ultimos_4_meses []) with (@nil fila).
  unfold mbind, Py_bind. rewrite bucle_vacio, print_run.
  unfold mret, Py_ret, nuevo_monto.
  rewrite Float64.mul_1_r, <- app_assoc. reflexivity.
Qed.

(** A frame with a row: the first turn of the loop raises, before any line
    of the table is written. *)
Lemma calcular_ajuste_lanza (monto_actual : float) (row : fila)
    (df : DataFrame) (salida : stdout) :
  calcular_ajuste monto_actual (row :: df) salida
  = (Lanza (NameError "coeficientes"), salida ++ encabezado).
Proof.
  unfold calcular_ajuste. rewrite encabezado_impreso.
  destruct (ultimos_4_meses_cons row df) as (primera & resto & ->).
  apply bind_lanza, bucle_lanza.
Qed.

Lemma calcular_ajuste_eq (monto_actual : float) (df_ipc : DataFrame)
    (salida : stdout) :
  calcular_ajuste monto_actual df_ipc salida
  = match df_ipc with
    | [] => (Devuelve (monto_actual, 0%float),
             salida ++ encabezado ++ [LineaSeparador])
    | _ :: _ => (Lanza (NameError "coeficientes"), salida ++ encabezado)
    end.
Proof.
  destruct df_ipc; [apply calcular_ajuste_vacio | apply calcular_ajuste_lanza].
Qed.

Lemma obtener_datos_ipc_eq (raw_data : list fila) (salida : stdout) :
  obtener_datos_ipc raw_data salida
  = (Devuelve (sort_values false raw_data), salida ++ [LineaConectando]).
Proof. reflexivity. Qed.

(** No exception class other than [NameError] leaves [calcular_ajuste]. *)
Lemma calcular_ajuste_solo_NameError (clase : string) (monto_actual : float)
    (df_ipc : DataFrame) (salida : stdout) :
  clase ≠ "NameError" →
  lanza clase (calcular_ajuste monto_actual df_ipc salida).1 = false.
Proof.
  intros Hc. rewrite calcular_ajuste_eq. destruct df_ipc; [reflexivity|].
  simpl. apply bool_decide_eq_false. congruence.
Qed.

Lemma main_eq (monto_actual : float) (raw_data : list fila) (salida : stdout) :
  main (Some monto_actual) raw_data salida
  = match raw_data with
    | [] => (Devuelve tt,
             salida ++ [LineaTitulo; LineaPregunta; LineaConectando] ++
             encabezado ++
             [LineaSeparador; LineaResultadoFinal;
              LineaMontoAnterior monto_actual; LineaAjusteTotal 0; LineaRaya;
              LineaNuevoAlquiler monto_actual; LineaNota;
              LineaNotaPrincipioDeMes])
    | _ :: _ => (Lanza (NameError "coeficientes"),
                 salida ++ [LineaTitulo; LineaPregunta; LineaConectando] ++
                 encabezado)
    end.
Proof.
  unfold main.
  rewrite (bind_devuelve _ _ _ _ _ (print_run _ _)).
  rewrite (bind_devuelve _ _ _ _ _ (print_run _ _)).
  rewrite (bind_devuelve _ _ _ _ _ (obtener_datos_ipc_eq raw_data _)).
  destruct raw_data as [|row resto].
  - change (sort_values false []) with (@nil fila).
    rewrite (bind_devuelve _ _ _ _ _ (calcular_ajuste_vacio _ _)).
    unfold mbind, Py_bind, print. now rewrite <- !app_assoc.
  - pose proof (sort_values_Permutation false (row :: resto)) as Hp.
    destruct (sort_values false (row :: resto)) as [|r l].
    { apply Permutation_nil in Hp. discriminate. }
    rewrite (bind_lanza _ _ _ _ _ (calcular_ajuste_lanza _ _ _ _)).
    now rewrite <- !app_assoc.
Qed.

Lemma main_sin_numero (raw_data : list fila) (salida : stdout) :
  main None raw_data salida
  = (Devuelve tt, salida ++ [LineaTitulo; LineaPregunta; LineaNumeroInvalido]).
Proof.
  unfold main, mbind, Py_bind, print. now rewrite <- !app_assoc.
Qed.

End Llamada.

(** * The claims *)

(** ** Compounding (C1, C2, C10) *)

(** C10: the body of the loop reads the name [coeficientes], which nothing
    binds, so its first turn raises [NameError]; a call with a non-empty
    window, that is with a non-empty series, ends with that exception after
    the four header lines and before any row of the table; only the empty
    series reaches the [return], and it gives back the amount unchanged with
    an increase of 0. *)
Theorem calcular_ajuste_NameError :
  (∀ row factor_acumulado salida,
     iteracion row factor_acumulado salida
     = (Lanza (NameError "coeficientes"), salida))
  ∧ (∀ monto_actual df_ipc salida,
       ultimos_4_meses df_ipc ≠ [] →
       calcular_ajuste monto_actual df_ipc salida
       = (Lanza (NameError "coeficientes"), salida ++ encabezado))
  ∧ (∀ monto_actual df_ipc salida,
       df_ipc ≠ [] →
       calcular_ajuste monto_actual df_ipc salida
       = (Lanza (NameError "coeficientes"), salida ++ encabezado))
  ∧ (∀ monto_actual df_ipc salida r,
       (calcular_ajuste monto_actual df_ipc salida).1 = Devuelve r →
       df_ipc = [] ∧ r = (monto_actual, 0%float))
  ∧ (∀ monto_actual salida,
       calcular_ajuste monto_actual [] salida
       = (Devuelve (monto_actual, 0%float),
          salida ++ encabezado ++ [LineaSeparador])).
Proof.
  split; [exact iteracion_lanza|].
  split.
  { intros m df salida Hv. rewrite calcular_ajuste_eq.
    destruct df; [now destruct Hv | reflexivity]. }
  split.
  { intros m df salida Hv. rewrite calcular_ajuste_eq.
    destruct df; [now destruct Hv | reflexivity]. }
  split; [|exact calcular_ajuste_vacio].
  intros m df salida r. rewrite calcular_ajuste_eq.
  destruct df; simpl; [|discriminate].
  intros [= <-]. split; reflexivity.
Qed.

Lemma calcular_ajuste_NameError_witness :
  calcular_ajuste 100000 df_ejemplo []
  = (Lanza (NameError "coeficientes"), [] ++ encabezado)
  ∧ calcular_ajuste 100000 [] []
    = (Devuelve (100000%float, 0%float), [] ++ encabezado ++ [LineaSeparador]).
Proof.
  split.
  - apply (proj1 (proj2 (proj2 calcular_ajuste_NameError))). discriminate.
  - apply (proj2 (proj2 (proj2 (proj2 calcular_ajuste_NameError)))).
Defined.

(** C1: for every amount and every window of four periods the call ends with
    [NameError] and computes no new amount; at the amount 100000 and the
    rates 0.04, 0.05, 0.03, 0.06 the product of the factors would give
    119224.56. *)
Theorem cuatro_periodos_sin_resultado :
  (∀ monto_actual r1 r2 r3 r4 salida,
     calcular_ajuste monto_actual [r1; r2; r3; r4] salida
     = (Lanza (NameError "coeficientes"), salida ++ encabezado))
  ∧ calcular_ajuste 100000 df_ejemplo []
    = (Lanza (NameError "coeficientes"), encabezado)
  ∧ nuevo_monto 100000 (factor_compuesto (ultimos_4_meses df_ejemplo))
    = 119224.56000000004%float.
Proof.
  split; [|split].
  - intros. apply calcular_ajuste_lanza.
  - apply (calcular_ajuste_lanza _ _ _ []).
  - vm_compute. reflexivity.
Qed.

(** C2: at the amount 100000 and the series whose four periods have, in
    ascending order, the raw values 0.04, 0.05, 0.03, 0.06, the window is
    selected with these values in this order, and the call then raises
    [NameError] after the four header lines: it yields no factor, no new
    amount and no increase. *)
Theorem ejemplo_extremo_a_extremo_NameError :
  ipc_mensual <$> ultimos_4_meses df_ejemplo = [0.04; 0.05; 0.03; 0.06]%float
  ∧ calcular_ajuste 100000 df_ejemplo []
    = (Lanza (NameError "coeficientes"),
       [LineaDetalle; LineaSeparador; LineaCabecera; LineaSeparador]).
Proof.
  split; [vm_compute; reflexivity|].
  apply (calcular_ajuste_lanza _ _ _ []).
Qed.

(** ** Normalization (C3) *)

(** C3: whatever the raw value of a period, 1.99 and 2.01 included, a call
    whose window holds that period raises [NameError] on line 72, after the
    four header lines and before line 83: no normalized rate is computed
    and no line of the table shows one. *)
Theorem normalizacion_sin_ejecutar :
  (∀ monto_actual fecha coeficiente salida,
     calcular_ajuste monto_actual [Fila fecha coeficiente] salida
     = (Lanza (NameError "coeficientes"), salida ++ encabezado))
  ∧ calcular_ajuste 100000 [Fila 202401 1.99] []
    = (Lanza (NameError "coeficientes"), encabezado)
  ∧ calcular_ajuste 100000 [Fila 202401 2.01] []
    = (Lanza (NameError "coeficientes"), encabezado).
Proof.
  split; [|split].
  - intros. apply calcular_ajuste_lanza.
  - apply (calcular_ajuste_lanza _ _ _ []).
  - apply (calcular_ajuste_lanza _ _ _ []).
Qed.

(** ** Failures the spec names (C4, C5, C6) *)

(** C4, as stated, fails: with the amount -500 and an empty series the call
    returns (-500, 0), and with a series of four periods it raises
    [NameError]; [main] hands -500 over without complaint. *)
Lemma monto_negativo_aceptado :
  calcular_ajuste (-500) [] []
  = (Devuelve ((-500)%float, 0%float), encabezado ++ [LineaSeparador])
  ∧ lanza "InvalidAmount" (calcular_ajuste (-500) [] []).1 = false
  ∧ lanza "InvalidAmount" (calcular_ajuste (-500) df_ejemplo []).1 = false
  ∧ (main (Some (-500)%float) [] []).1 = Devuelve tt.
Proof.
  split; [apply calcular_ajuste_vacio|].
  split; [now rewrite calcular_ajuste_eq|].
  split; [now rewrite calcular_ajuste_eq|].
  now rewrite main_eq.
Qed.

(** C4, amended: for every amount, positive or not, and every series, the
    call does not raise [InvalidAmount]; neither does [main], which, when
    the text typed is not a number, prints a message and returns. *)
Theorem sin_InvalidAmount :
  (∀ monto_actual df_ipc salida,
     lanza "InvalidAmount" (calcular_ajuste monto_actual df_ipc salida).1 = false)
  ∧ (∀ entrada raw_data salida,
       lanza "InvalidAmount" (main entrada raw_data salida).1 = false)
  ∧ (∀ raw_data salida,
       main None raw_data salida
       = (Devuelve tt,
          salida ++ [LineaTitulo; LineaPregunta; LineaNumeroInvalido])).
Proof.
  split; [|split].
  - intros. now apply calcular_ajuste_solo_NameError.
  - intros [m|] raw salida; [|now rewrite main_sin_numero].
    rewrite main_eq. now destruct raw.
  - exact main_sin_numero.
Qed.

(** C5, as stated, fails: a window whose only period has the raw value -1.5
    has the normalized rate -1.5, which is at most -1, and the call does
    not raise [InvalidRate]; the factor of that period would be -0.5. *)
Lemma tasa_invalida_aceptada :
  pct_real (-1.5) = (-1.5)%float
  ∧ (pct_real (-1.5) <=? -1)%float = true
  ∧ factor_dia (pct_real (-1.5)) = (-0.5)%float
  ∧ lanza "InvalidRate" (calcular_ajuste 100000 df_tasa_invalida []).1 = false.
Proof.
  repeat split; try (vm_compute; reflexivity).
Qed.

(** C5, amended: whatever the rates of the window, the call does not raise
    [InvalidRate]; the factor of a period is 1 plus its normalized rate,
    with no test on the rate. *)
Theorem sin_InvalidRate :
  (∀ monto_actual df_ipc salida,
     lanza "InvalidRate" (calcular_ajuste monto_actual df_ipc salida).1 = false)
  ∧ (∀ coeficiente,
       factor_dia (pct_real coeficiente) = (1 + pct_real coeficiente)%float).
Proof.
  split.
  - intros. now apply calcular_ajuste_solo_NameError.
  - reflexivity.
Qed.

(** C6, as stated, fails: with an empty series the call returns a result,
    the amount and an increase of 0, and raises nothing. *)
Lemma serie_vacia_no_falla :
  calcular_ajuste 100000 [] []
  = (Devuelve (100000%float, 0%float), encabezado ++ [LineaSeparador])
  ∧ lanza "DataUnavailable" (calcular_ajuste 100000 [] []).1 = false.
Proof.
  split; [apply calcular_ajuste_vacio|].
  now rewrite calcular_ajuste_eq.
Qed.

(** C6, amended: for every amount, with an empty series the call returns
    the amount unchanged and an increase of 0, after printing the header
    and the closing rule of an empty table; [DataUnavailable] is raised for
    no series. *)
Theorem serie_vacia_devuelve_monto :
  (∀ monto_actual salida,
     calcular_ajuste monto_actual [] salida
     = (Devuelve (monto_actual, 0%float),
        salida ++ encabezado ++ [LineaSeparador]))
  ∧ (∀ monto_actual df_ipc salida,
       lanza "DataUnavailable" (calcular_ajuste monto_actual df_ipc salida).1
       = false).
Proof.
  split; [exact calcular_ajuste_vacio|].
  intros. now apply calcular_ajuste_solo_NameError.
Qed.

(** ** The window (C7, C8) *)

(** C7, as stated, fails: with a series of two periods the window has two
    periods, but the call raises [NameError] and returns no result, so
    nothing reports a coverage of 2. *)
Lemma dos_periodos_sin_resultado :
  length (ultimos_4_meses df_dos_meses) = 2
  ∧ calcular_ajuste 100000 df_dos_meses []
    = (Lanza (NameError "coeficientes"), encabezado).
Proof.
  split; [reflexivity|].
  apply (calcular_ajuste_lanza _ _ _ []).
Qed.

(** C7, amended: for every series the window has min(4, length of the
    series) periods, the first rows of the frame re-sorted oldest first; in
    the frame [obtener_datos_ipc] delivers, sorted most recent first, these
    are the most recent periods: no row left out is more recent than a row
    of the window. *)
Theorem ventana_min_4 :
  (∀ df_ipc,
     length (ultimos_4_meses df_ipc) = 4 `min` length df_ipc
     ∧ ultimos_4_meses df_ipc ≡ₚ take 4 df_ipc
     ∧ StronglySorted fecha_le (ultimos_4_meses df_ipc))
  ∧ (∀ raw_data salida,
       ∃ df, obtener_datos_ipc raw_data salida
             = (Devuelve df, salida ++ [LineaConectando])
         ∧ df ≡ₚ raw_data
         ∧ length (ultimos_4_meses df) = 4 `min` length raw_data
         ∧ ∀ r r', r ∈ ultimos_4_meses df → r' ∈ drop 4 df →
                   (fecha r' ≤ fecha r)%Z).
Proof.
  split.
  - intros df. split; [apply ultimos_4_meses_length|].
    split; [apply ultimos_4_meses_Permutation | apply ultimos_4_meses_sorted].
  - intros raw salida. exists (sort_values false raw).
    split; [apply obtener_datos_ipc_eq|].
    split; [apply sort_values_Permutation|].
    split.
    + rewrite ultimos_4_meses_length. now rewrite sort_values_Permutation.
    + intros r r'. apply ultimos_4_meses_recientes, sort_values_desc_sorted.
Qed.

Lemma ventana_min_4_witness :
  length (ultimos_4_meses df_dos_meses) = 4 `min` length df_dos_meses
  ∧ ∃ df, obtener_datos_ipc datos_cinco_meses []
          = (Devuelve df, [] ++ [LineaConectando])
      ∧ (fecha (Fila 202401 0.04) ≤ fecha (Fila 202402 0.05))%Z.
Proof.
  split.
  - apply (proj1 ventana_min_4).
  - destruct (proj2 ventana_min_4 datos_cinco_meses []) as (df & Hdf & _ & _ & Hr).
    exists df. split; [exact Hdf|].
    rewrite obtener_datos_ipc_eq in Hdf. injection Hdf as <-.
    apply Hr; vm_compute; apply list_elem_of_here.
Defined.

(** C8: for the periods given as March, January, February, April, the
    frame [obtener_datos_ipc] delivers is sorted most recent first and the
    window selected in it is January, February, March, April, oldest first;
    the call then raises [NameError] on the first of them, after the four
    header lines: no period is compounded. *)
Theorem orden_cronologico_sin_componer :
  obtener_datos_ipc datos_desordenados []
  = (Devuelve (reverse datos_ordenados), [LineaConectando])
  ∧ ultimos_4_meses (reverse datos_ordenados) = datos_ordenados
  ∧ calcular_ajuste 100000 (reverse datos_ordenados) [LineaConectando]
    = (Lanza (NameError "coeficientes"),
       [LineaConectando; LineaDetalle; LineaSeparador; LineaCabecera;
        LineaSeparador]).
Proof.
  split; [vm_compute; reflexivity|].
  split; [vm_compute; reflexivity|].
  now rewrite calcular_ajuste_eq.
Qed.

(** * The engine when the module binds [coeficientes] *)

Section Espacio.

(** Binding [coeficientes] changes the resolution of no other name. *)
Lemma espacio_con_otros (o : objeto) (nombre : string) :
  nombre ≠ "coeficientes" → espacio_con o !! nombre = globales !! nombre.
Proof.
  intros Hn. unfold espacio_con. rewrite lookup_insert_ne by congruence.
  reflexivity.
Qed.

Lemma cargar_coeficientes_en (o : objeto) (salida : stdout) :
  cargar_nombre_en (espacio_con o) "coeficientes" salida
  = (Devuelve o, salida).
Proof.
  unfold cargar_nombre_en, espacio_con. now rewrite lookup_insert_eq.
Qed.

Lemma iteracion_en_float (x : float) (row : fila) (factor_acumulado : float)
    (salida : stdout) :
  con_valor row →
  iteracion_en (ObjFloat x) row factor_acumulado salida
  = (Devuelve (factor_acumulado * (1 + x)
               * factor_dia (pct_real (ipc_mensual row)))%float,
     salida ++ [linea_mes row]).
Proof.
  intros Hv. unfold iteracion_en.
  rewrite (bind_devuelve _ _ _ _ _ (cargar_coeficientes_en _ _)).
  unfold sumar, normalizar. rewrite Hv. reflexivity.
Qed.



Lemma bucle_en_float (x : float) (filas : list fila) :
  Forall con_valor filas →
  ∀ factor_acumulado salida,
    bucle_en (ObjFloat x) filas factor_acumulado salida
    = (Devuelve (factor_tras x filas factor_acumulado),
       salida ++ (linea_mes <$> filas)).
Proof.
  induction 1 as [|row resto Hv _ IH]; intros f salida.
  - simpl. now rewrite app_nil_r.
  - cbn [bucle_en].
    rewrite (bind_devuelve _ _ _ _ _ (iteracion_en_float x row f salida Hv)).
    rewrite IH, fmap_cons, <- app_assoc. reflexivity.
Qed.




Lemma calcular_ajuste_en_float_eq (x : float) (monto_actual : float)
    (df_ipc : DataFrame) (salida : stdout) :
  Forall con_valor (ultimos_4_meses df_ipc) →
  calcular_ajuste_en (ObjFloat x) monto_actual df_ipc salida
  = (Devuelve
       (nuevo_monto monto_actual (factor_tras x (ultimos_4_meses df_ipc) 1),
        incremento_total_pct (factor_tras x (ultimos_4_meses df_ipc) 1)),
     salida ++ encabezado ++ (linea_mes <$> ultimos_4_meses df_ipc)
     ++ [LineaSeparador]).
Proof.
  intros Hv. unfold calcular_ajuste_en. rewrite encabezado_impreso.
  rewrite (bind_devuelve _ _ _ _ _ (bucle_en_float x _ Hv _ _)).
  unfold mbind, Py_bind, print, mret, Py_ret.
  now rewrite <- !app_assoc.
Qed.




End Espacio.









(** ** Effects (C9) *)




(** * Further properties of the program *)

(** ** The script from end to end *)

(** X5: when a number is typed and the service answers with at least one
    row, all of them with a date and a value that convert, [main] ends with
    the uncaught [NameError]: it has printed the title, the prompt, the
    connection notice and the header of the table, and no result. *)
Theorem main_con_datos (monto_actual : float) (raw_data : list fila)
    (salida : stdout) :
  raw_data ≠ [] →
  main (Some monto_actual) raw_data salida
  = (Lanza (NameError "coeficientes"),
     salida ++ [LineaTitulo; LineaPregunta; LineaConectando] ++ encabezado).
Proof.
  intros Hr. rewrite main_eq. destruct raw_data; [done|reflexivity].
Qed.

Lemma main_con_datos_witness :
  main (Some 100000%float) datos_desordenados []
  = (Lanza (NameError "coeficientes"),
     [] ++ [LineaTitulo; LineaPregunta; LineaConectando] ++ encabezado).
Proof. apply main_con_datos. discriminate. Defined.

(** X6: when a number is typed and the service answers with no row, [main]
    finishes normally and reports, for every amount, an adjustment of 0 and
    a new rent equal to the amount typed. *)
Theorem main_sin_datos (monto_actual : float) (salida : stdout) :
  main (Some monto_actual) [] salida
  = (Devuelve tt,
     salida ++ [LineaTitulo; LineaPregunta; LineaConectando] ++ encabezado ++
     [LineaSeparador; LineaResultadoFinal; LineaMontoAnterior monto_actual;
      LineaAjusteTotal 0; LineaRaya; LineaNuevoAlquiler monto_actual;
      LineaNota; LineaNotaPrincipioDeMes]).
Proof. now rewrite main_eq. Qed.

(** ** The frame [obtener_datos_ipc] delivers *)

Section Marco.

#[local] Instance fecha_ge_trans' : Transitive fecha_ge.
Proof. unfold fecha_ge. intros x y z. lia. Qed.
#[local] Instance fecha_le_trans' : Transitive fecha_le.
Proof. unfold fecha_le. intros x y z. lia. Qed.
#[local] Instance fecha_le_total' : Total fecha_le.
Proof. unfold fecha_le. intros x y. lia. Qed.

(** Two lists of rows of a series with one row per month, both in ascending
    order of month and with the same rows, are the same list. *)
Lemma ascendente_unico (raw l1 l2 : list fila) :
  NoDup (fecha <$> raw) → l1 ⊆ raw → l2 ⊆ raw →
  StronglySorted fecha_le l1 → StronglySorted fecha_le l2 →
  l1 ≡ₚ l2 → l1 = l2.
Proof.
  intros Hnd H1 H2 Hs1 Hs2 Hp.
  apply (StronglySorted_unique_strong fecha_le); auto.
  unfold fecha_le. intros x1 x2 Hx1 Hx2 Ha Hb.
  apply (fecha_inj raw); auto. lia.
Qed.

Lemma sort_values_desc_reverse (raw : list fila) :
  NoDup (fecha <$> raw) →
  sort_values false raw = reverse (sort_values true raw).
Proof.
  intros Hnd.
  apply (StronglySorted_unique_strong fecha_ge).
  - unfold fecha_ge. intros x1 x2 Hx1 Hx2 Ha Hb.
    rewrite sort_values_Permutation in Hx1.
    rewrite elem_of_reverse, sort_values_Permutation in Hx2.
    apply (fecha_inj raw); auto. lia.
  - apply sort_values_desc_sorted.
  - apply (Sorted_StronglySorted fecha_ge).
    change (Sorted (flip fecha_le) (reverse (sort_values true raw))).
    apply Sorted_reverse, (Sorted_merge_sort fecha_le).
  - now rewrite reverse_Permutation, !sort_values_Permutation.
Qed.

End Marco.

(** X8: with one row per month, all of them converted, the rows of the
    frame delivered, dates and values in the order of the frame, do not
    depend on the order in which the service lists them (the index labels,
    which are not modelled, keep the position of arrival). *)
Theorem obtener_datos_ipc_orden_irrelevante (raw_data raw_data' : list fila)
    (salida : stdout) :
  NoDup (fecha <$> raw_data) →
  raw_data' ≡ₚ raw_data →
  obtener_datos_ipc raw_data' salida = obtener_datos_ipc raw_data salida.
Proof.
  intros Hnd Hp. rewrite !obtener_datos_ipc_eq.
  now rewrite (sort_values_orden_irrelevante false raw_data raw_data').
Qed.

Lemma obtener_datos_ipc_orden_irrelevante_witness :
  obtener_datos_ipc datos_desordenados []
  = obtener_datos_ipc datos_ordenados [].
Proof.
  apply obtener_datos_ipc_orden_irrelevante.
  - apply (bool_decide_unpack (NoDup _)). vm_compute. exact I.
  - unfold datos_desordenados, datos_ordenados.
    etransitivity; [apply perm_swap|]. apply perm_skip, perm_swap.
Defined.

Lemma ultimos_4_meses_de_la_serie (raw_data : list fila) :
  NoDup (fecha <$> raw_data) →
  ultimos_4_meses (sort_values false raw_data)
  = drop (length raw_data - 4) (sort_values true raw_data).
Proof.
  intros Hnd.
  set (asc := sort_values true raw_data).
  assert (Hasc : asc ≡ₚ raw_data) by apply sort_values_Permutation.
  unfold ultimos_4_meses, head.
  rewrite (sort_values_desc_reverse raw_data Hnd). fold asc.
  assert (Hlen : length asc = length raw_data) by now rewrite Hasc.
  rewrite take_reverse, Hlen.
  set (d := drop (length raw_data - 4) asc).
  assert (Hd : d ⊆ raw_data).
  { intros x Hx. rewrite <- Hasc. unfold d in Hx.
    rewrite <- (take_drop (length raw_data - 4) asc), elem_of_app. now right. }
  apply (ascendente_unico raw_data); auto.
  - intros x Hx. rewrite sort_values_Permutation, elem_of_reverse in Hx. auto.
  - apply sort_values_asc_sorted.
  - pose proof (sort_values_asc_sorted raw_data) as Hs. fold asc in Hs.
    rewrite <- (take_drop (length raw_data - 4) asc) in Hs.
    now apply StronglySorted_app_1_r in Hs.
  - now rewrite sort_values_Permutation, reverse_Permutation.
Qed.

(** X9: with one row per month, the window [calcular_ajuste] selects in the
    frame delivered by [obtener_datos_ipc] is made of the last four rows of
    the series taken in ascending order of month (all of them when there
    are fewer than four). *)
Theorem ventana_ultimas_filas (raw_data : list fila) (salida : stdout)
    (df : DataFrame) :
  NoDup (fecha <$> raw_data) →
  (obtener_datos_ipc raw_data salida).1 = Devuelve df →
  ultimos_4_meses df
  = drop (length raw_data - 4) (sort_values true raw_data).
Proof.
  intros Hnd Hdf. rewrite obtener_datos_ipc_eq in Hdf.
  injection Hdf as <-. now apply ultimos_4_meses_de_la_serie.
Qed.

Lemma ventana_ultimas_filas_witness :
  ultimos_4_meses (sort_values false datos_cinco_meses)
  = [ Fila 202402 0.05; Fila 202403 0.03; Fila 202404 0.06; Fila 202405 0.02 ].
Proof.
  rewrite (ventana_ultimas_filas datos_cinco_meses []
             (sort_values false datos_cinco_meses)).
  - vm_compute. reflexivity.
  - apply (bool_decide_unpack (NoDup _)). vm_compute. exact I.
  - reflexivity.
Defined.



(** ** Normalization of negative values *)

Lemma ltb_0_2 (c : float) : (c <? 0)%float = true → (c <? 2)%float = true.
Proof.
  rewrite !ltb_spec.
  change (Prim2SF 0) with (S754_zero false).
  change (Prim2SF 2) with (S754_finite false 4503599627370496 (-51)).
  destruct (Prim2SF c) as [s | s | | s m e]; simpl; try discriminate;
    now destruct s.
Qed.

(** X11: a negative raw value is never read as a percentage: whatever its
    size, its normalized rate is the value itself, so that -5.0 gives the
    rate -5.0 and the factor -4.0. *)
Theorem pct_real_negativo (coeficiente : float) :
  (coeficiente <? 0)%float = true →
  pct_real coeficiente = coeficiente
  ∧ factor_dia (pct_real coeficiente) = (1 + coeficiente)%float.
Proof.
  intros Hc. unfold factor_dia, pct_real. now rewrite (ltb_0_2 _ Hc).
Qed.

Lemma pct_real_negativo_witness :
  pct_real (-5) = (-5)%float ∧ factor_dia (pct_real (-5)) = (1 + -5)%float.
Proof. apply pct_real_negativo. reflexivity. Defined.

(** ** The table from end to end *)

(** X12: with one row per month, a value in every row and [coeficientes]
    bound to a float, the table printed for the frame [obtener_datos_ipc]
    delivers shows the last four months of the series, oldest first,
    whatever the order the service lists them in, between the header and
    the closing rule. *)
Theorem tabla_cronologica (x : float) (monto_actual : float)
    (raw_data : list fila) (df : DataFrame) (salida : stdout) :
  NoDup (fecha <$> raw_data) →
  Forall con_valor raw_data →
  (obtener_datos_ipc raw_data salida).1 = Devuelve df →
  (calcular_ajuste_en (ObjFloat x) monto_actual df []).2
  = encabezado
    ++ (linea_mes <$> drop (length raw_data - 4) (sort_values true raw_data))
    ++ [LineaSeparador].
Proof.
  intros Hnd Hv Hdf. rewrite obtener_datos_ipc_eq in Hdf.
  assert (df = sort_values false raw_data) as ->
    by (cbn [fst] in Hdf; congruence).
  rewrite calcular_ajuste_en_float_eq.
  - now rewrite (ultimos_4_meses_de_la_serie raw_data Hnd).
  - rewrite Forall_forall in Hv |- *. intros r Hr. apply Hv.
    rewrite ultimos_4_meses_Permutation in Hr.
    rewrite <- (sort_values_Permutation false raw_data).
    rewrite <- (take_drop 4 (sort_values false raw_data)), elem_of_app.
    now left.
Qed.

Lemma tabla_cronologica_witness :
  (calcular_ajuste_en (ObjFloat 0) 100000
     (sort_values false datos_desordenados) []).2
  = encabezado
    ++ [ LineaMes 202401 5.0000000000000004 1.05; LineaMes 202402 2 1.02;
         LineaMes 202403 10 1.1000000000000001; LineaMes 202404 3 1.03 ]
    ++ [LineaSeparador].
Proof.
  rewrite (tabla_cronologica 0 100000 datos_desordenados
             (sort_values false datos_desordenados) []).
  - vm_compute. reflexivity.
  - apply (bool_decide_unpack (NoDup _)). vm_compute. exact I.
  - repeat constructor.
  - reflexivity.
Defined.
